(** * UniversalTime: a shallow embedding of [UniversalTime_jake.hh]

    The class stores a time since the epoch as three components:
    [days] and [seconds] are [Int_t], [nanoSeconds] is a [Double_t].

    Modelling choices:
    - [Int_t] is modelled as [Z] and [static_cast<int>(x)] as truncation
      toward zero, [Qtrunc], with no range limit.  Every concrete input
      below stays far inside the 32-bit range; the general theorems are
      stated on inputs where the program stays in range too ([bounded],
      [int_domain], [small_days]).
    - [Double_t] is modelled as [Q], i.e. doubles with exact arithmetic.
      Every concrete value used below is an integer smaller than 2^53, on
      which double arithmetic is exact, so the model and the program agree
      there bit for bit; theorems that assert [operator==] after
      arithmetic are stated on whole nanoseconds ([whole_ns]).
    - The double literal [1.0e9] is written [1000000000]. *)

From stdpp Require Import base gmap.
From Stdlib Require Import ZArith QArith Qabs Lia Lqa Bool.

Open Scope Z_scope.

(** ** Data model *)

Record UniversalTime := mkRaw {
  days : Z;
  seconds : Z;
  nanoSeconds : Q
}.

(** Comparisons on doubles, as the C++ relational operators. *)
Definition Qltb (x y : Q) : bool := negb (Qle_bool y x).
Definition Qgtb (x y : Q) : bool := Qltb y x.
Definition Qgeb (x y : Q) : bool := Qle_bool y x.

(** [static_cast<int>] of a double: truncation toward zero. *)
Definition Qtrunc (x : Q) : Z := Z.quot (Qnum x) (Zpos (Qden x)).

(** The real-valued instant a triple denotes, in seconds:
    [days*86400 + seconds + nanoSeconds*1e-9]. *)
Definition instant (t : UniversalTime) : Q :=
  (inject_Z (days t * 86400 + seconds t) + nanoSeconds t * (1 # 1000000000))%Q.

(** ** Operations *)

(** [UniversalTime::TimeOrder] (lines 196-203). *)
Definition TimeOrder (t : UniversalTime) : bool :=
  if days t <? 0 then false
  else if (days t =? 0) && (seconds t <? 0) then false
  else if (days t =? 0) && (seconds t =? 0) && Qltb (nanoSeconds t) 0%Q
  then false
  else true.

(** Lines 225-242: the "IN ORDER" block, run when [TimeOrder()] holds. *)
Definition borrow_in_order (t : UniversalTime) : UniversalTime :=
  let t1 :=
    if Qltb (nanoSeconds t) 0%Q
    then mkRaw (days t) (seconds t - 1) (nanoSeconds t + 1000000000)%Q
    else t in
  if seconds t1 <? 0
  then mkRaw (days t1 - 1) (seconds t1 + 86400) (nanoSeconds t1)
  else t1.

(** Lines 244-260: the "NOT IN ORDER" block, run when [!TimeOrder()]. *)
Definition fold_not_in_order (t : UniversalTime) : UniversalTime :=
  let t1 :=
    if Qgtb (nanoSeconds t) 0%Q
    then mkRaw (days t) (seconds t + 1) (nanoSeconds t - 1000000000)%Q
    else t in
  if seconds t1 >? 0
  then mkRaw (days t1 + 1) (seconds t1 - 86400) (nanoSeconds t1)
  else t1.

(** Lines 272-277: the truncating carry. *)
Definition carry (t : UniversalTime) : UniversalTime :=
  let overflowSeconds := Qtrunc (nanoSeconds t / 1000000000)%Q in
  let s1 := seconds t + overflowSeconds in
  let n1 := (nanoSeconds t - inject_Z overflowSeconds * 1000000000)%Q in
  let overflowDays := Z.quot s1 (60 * 60 * 24) in
  mkRaw (days t + overflowDays) (s1 - overflowDays * 60 * 60 * 24) n1.

(** [UniversalTime::Normalise] (lines 206-289).  The second block is
    guarded by a fresh call of [TimeOrder()] on the state left by the
    first block. *)
Definition Normalise (t : UniversalTime) : UniversalTime :=
  let t1 := if TimeOrder t then borrow_in_order t else t in
  let t2 := if negb (TimeOrder t1) then fold_not_in_order t1 else t1 in
  carry t2.

(** The constructor [UniversalTime(days_, seconds_, nanoSeconds_)]
    (lines 135-140). *)
Definition UT (d s : Z) (n : Q) : UniversalTime := Normalise (mkRaw d s n).

(** The default constructor (line 28). *)
Definition UT0 : UniversalTime := mkRaw 0 0 0%Q.

(** [operator+=] (lines 160-168). *)
Definition add_assign (this rhs : UniversalTime) : UniversalTime :=
  Normalise (mkRaw (days this + days rhs) (seconds this + seconds rhs)
                   (nanoSeconds this + nanoSeconds rhs)%Q).

(** [operator-=] (lines 170-178). *)
Definition sub_assign (this rhs : UniversalTime) : UniversalTime :=
  Normalise (mkRaw (days this - days rhs) (seconds this - seconds rhs)
                   (nanoSeconds this - nanoSeconds rhs)%Q).

(** [operator+] (line 68) and the binary [operator--] (line 80): a copy of
    [*this] updated in place; as values, the results. *)
Definition plus (a b : UniversalTime) : UniversalTime := add_assign a b.
Definition minus (a b : UniversalTime) : UniversalTime := sub_assign a b.

(** [operator==] and [operator!=] (lines 86, 92). *)
Definition eqb (a b : UniversalTime) : bool :=
  (days a =? days b) && (seconds a =? seconds b)
  && Qeq_bool (nanoSeconds a) (nanoSeconds b).
Definition neqb (a b : UniversalTime) : bool := negb (eqb a b).

(** [operator<] (lines 180-187). *)
Definition ltb (a b : UniversalTime) : bool :=
  if days a >? days b then false
  else if (days a =? days b) && (seconds a >? seconds b) then false
  else if (days a =? days b) && (seconds a =? seconds b)
          && Qgeb (nanoSeconds a) (nanoSeconds b) then false
  else true.

(** [operator<=], [operator>], [operator>=] (lines 104-116). *)
Definition leb (a b : UniversalTime) : bool := ltb a b || eqb a b.
Definition gtb (a b : UniversalTime) : bool := negb (leb a b).
Definition geb (a b : UniversalTime) : bool := gtb a b || eqb a b.

(** [UniversalTime::IsNegative] (lines 189-194); nothing calls it. *)
Definition IsNegative (t : UniversalTime) : bool :=
  (days t <? 0) || (seconds t <? 0) || Qltb (nanoSeconds t) 0%Q.

(** ** The normalisation algorithm as section 4.1 of the specification
    words it: one sign test on the incoming triple chooses between the
    borrow phase (step 2) and the fold phase (step 3); step 4 then carries
    truncated quotients upward. *)

Definition spec_nonneg (t : UniversalTime) : bool :=
  (days t >? 0)
  || ((days t =? 0)
      && ((seconds t >? 0)
          || ((seconds t =? 0) && Qle_bool 0 (nanoSeconds t)))).

Definition spec_step2 (t : UniversalTime) : UniversalTime :=
  let t1 := if Qltb (nanoSeconds t) 0%Q
            then mkRaw (days t) (seconds t - 1) (nanoSeconds t + 1000000000)%Q
            else t in
  if seconds t1 <? 0
  then mkRaw (days t1 - 1) (seconds t1 + 86400) (nanoSeconds t1)
  else t1.

Definition spec_step3 (t : UniversalTime) : UniversalTime :=
  let t1 := if Qltb 0%Q (nanoSeconds t)
            then mkRaw (days t) (seconds t + 1) (nanoSeconds t - 1000000000)%Q
            else t in
  if 0 <? seconds t1
  then mkRaw (days t1 + 1) (seconds t1 - 86400) (nanoSeconds t1)
  else t1.

Definition spec_step4 (t : UniversalTime) : UniversalTime :=
  let qs := Qtrunc (nanoSeconds t / 1000000000)%Q in
  let s1 := seconds t + qs in
  let qd := Z.quot s1 86400 in
  mkRaw (days t + qd) (s1 - qd * 86400)
        (nanoSeconds t - inject_Z qs * 1000000000)%Q.

Definition spec_Normalise (t : UniversalTime) : UniversalTime :=
  spec_step4 (if spec_nonneg t then spec_step2 t else spec_step3 t).

(** A triple in the canonical form of the specification. *)
Definition canonical (t : UniversalTime) : Prop :=
  0 <= seconds t < 86400 /\ (0 <= nanoSeconds t < 1000000000)%Q.

(** Bounds that every normalised triple satisfies in absolute value. *)
Definition bounded (t : UniversalTime) : Prop :=
  -86400 < seconds t < 86400
  /\ (-1000000000 < nanoSeconds t < 1000000000)%Q.

(** Components of one sign: a non-negative instant with every component
    non-negative, or a negative one with every component non-positive; in
    both cases [|seconds| < 86400] and [|nanoSeconds| < 1e9]. *)
Definition sign_consistent (t : UniversalTime) : Prop :=
  (0 <= days t /\ 0 <= seconds t < 86400
   /\ (0 <= nanoSeconds t < 1000000000)%Q)
  \/ (days t <= 0 /\ -86400 < seconds t <= 0
      /\ (-1000000000 < nanoSeconds t <= 0)%Q).

(** All three components non-negative, or all non-positive. *)
Definition same_sign (t : UniversalTime) : Prop :=
  (0 <= days t /\ 0 <= seconds t /\ (0 <= nanoSeconds t)%Q)
  \/ (days t <= 0 /\ seconds t <= 0 /\ (nanoSeconds t <= 0)%Q).

(** The mirror image of [canonical], the form the fold branch gives a
    negative instant. *)
Definition canonical_neg (t : UniversalTime) : Prop :=
  -86400 < seconds t <= 0 /\ (-1000000000 < nanoSeconds t <= 0)%Q.

(** Inputs on which [Normalise] keeps every [Int_t] value, and the value
    of each [static_cast<int>], within 32 bits.  The sign phases move
    [seconds] by at most [86401] and [days] by at most 2; the nanosecond
    cast gives at most [|nanoSeconds|/1e9 + 2] in absolute value and the
    day carry at most [24856]. *)
Definition int_domain (t : UniversalTime) : Prop :=
  -2147400000 <= days t <= 2147400000
  /\ (Qabs (inject_Z (seconds t)) + Qabs (nanoSeconds t) * (1 # 1000000000)
      <= 2147000000)%Q.

(** A whole number of nanoseconds: the [Double_t] arithmetic of [+=] and
    [-=] on such values below [2^53] is exact. *)
Definition whole_ns (t : UniversalTime) : bool :=
  Z.rem (Qnum (nanoSeconds t)) (Zpos (Qden (nanoSeconds t))) =? 0.

(** Days small enough that sums of three of them, plus the carries, stay
    within [Int_t]. *)
Definition small_days (t : UniversalTime) : Prop :=
  -536870911 <= days t <= 536870911.

(** The sign phases of [Normalise] (lines 225-260), before the carry. *)
Definition sign_phases (t : UniversalTime) : UniversalTime :=
  let t1 := if TimeOrder t then borrow_in_order t else t in
  if negb (TimeOrder t1) then fold_not_in_order t1 else t1.

(** ** Objects in memory

    [operator+] (line 68) and [operator--] (line 80) are [const] members
    that copy [*this] into a temporary, apply [+=] or [-=] to the
    temporary and return a reference to it.  To state what they leave
    untouched, objects live in a store of locations; [rhs] is a
    reference into the same store, so [a + a] aliases. *)

Abbreviation loc := positive.
Abbreviation store := (gmap loc UniversalTime).

(** [this->operator+=(rhs)] on the object at [l], [rhs] at [r]. *)
Definition add_assign_at (h : store) (l r : loc) : option store :=
  this ← h !! l;
  rhs ← h !! r;
  Some (<[l := add_assign this rhs]> h).

(** [this->operator-=(rhs)]. *)
Definition sub_assign_at (h : store) (l r : loc) : option store :=
  this ← h !! l;
  rhs ← h !! r;
  Some (<[l := sub_assign this rhs]> h).

(** The copy constructor applied to [*this]: the copy lands at a fresh
    location. *)
Definition copy_at (h : store) (l : loc) : option (store * loc) :=
  this ← h !! l;
  let tmp := fresh (dom h) in
  Some (<[tmp := this]> h, tmp).

(** [a + b]: [UniversalTime(a) += b]; the result is the reference to the
    temporary.  (The end of the temporary's lifetime, which leaves that
    reference dangling in C++, is not modelled.) *)
Definition plus_at (h : store) (la lb : loc) : option (store * loc) :=
  '(h1, tmp) ← copy_at h la;
  h2 ← add_assign_at h1 tmp lb;
  Some (h2, tmp).

(** [a.operator--(b)]: [UniversalTime(a) -= b]. *)
Definition minus_at (h : store) (la lb : loc) : option (store * loc) :=
  '(h1, tmp) ← copy_at h la;
  h2 ← sub_assign_at h1 tmp lb;
  Some (h2, tmp).

(** * Lemmas *)

Lemma Qtrunc_spec (x : Q) :
  (-1 < x - inject_Z (Qtrunc x) < 1)%Q.
Proof.
  destruct x as [p d]; unfold Qtrunc; simpl.
  pose proof (Z.quot_rem' p (Zpos d)) as Hq.
  pose proof (Z.rem_bound_abs p (Zpos d) ltac:(lia)) as Hr.
  set (q := Z.quot p (Zpos d)) in *.
  set (r := Z.rem p (Zpos d)) in *.
  unfold Qlt, Qminus, Qplus, Qopp, inject_Z; simpl.
  split; nia.
Qed.

Lemma Qdiv_ns (n : Q) : (n / 1000000000 = n * (1 # 1000000000))%Q.
Proof. reflexivity. Qed.

Lemma carry_bounded (t : UniversalTime) : bounded (carry t).
Proof.
  destruct t as [d s n]; unfold carry, bounded; simpl.
  pose proof (Qtrunc_spec (n / 1000000000)) as Hn.
  set (q := Qtrunc (n / 1000000000)%Q) in *.
  rewrite Qdiv_ns in Hn.
  set (s1 := s + q).
  change (60 * 60 * 24) with 86400.
  pose proof (Z.quot_rem' s1 86400) as Hq.
  pose proof (Z.rem_bound_abs s1 86400 ltac:(lia)) as Hr.
  split; [lia | lra].
Qed.

Lemma instant_mkRaw (d s : Z) (n : Q) :
  (instant (mkRaw d s n)
   == inject_Z d * 86400 + inject_Z s + n * (1 # 1000000000))%Q.
Proof.
  unfold instant; simpl.
  rewrite inject_Z_plus, inject_Z_mult. reflexivity.
Qed.

(** Every step of [Normalise] moves a unit between adjacent components
    and so keeps the instant. *)
Ltac instant_step :=
  repeat rewrite instant_mkRaw;
  unfold Z.sub;
  repeat first [ rewrite inject_Z_plus | rewrite inject_Z_opp
               | rewrite inject_Z_mult ];
  simpl; ring.

Lemma instant_borrow_in_order (t : UniversalTime) :
  (instant (borrow_in_order t) == instant t)%Q.
Proof.
  destruct t as [d s n]; unfold borrow_in_order; simpl.
  destruct (Qltb n 0); simpl;
    destruct (_ <? 0); simpl; instant_step.
Qed.

Lemma instant_fold_not_in_order (t : UniversalTime) :
  (instant (fold_not_in_order t) == instant t)%Q.
Proof.
  destruct t as [d s n]; unfold fold_not_in_order; simpl.
  destruct (Qgtb n 0); simpl;
    destruct (_ >? 0); simpl; instant_step.
Qed.

Lemma instant_carry (t : UniversalTime) :
  (instant (carry t) == instant t)%Q.
Proof. destruct t as [d s n]; unfold carry; simpl; instant_step. Qed.

Lemma instant_Normalise (t : UniversalTime) :
  (instant (Normalise t) == instant t)%Q.
Proof.
  unfold Normalise.
  rewrite instant_carry.
  destruct (TimeOrder t) eqn:E1; simpl.
  - destruct (TimeOrder (borrow_in_order t)); simpl;
      [| rewrite instant_fold_not_in_order]; apply instant_borrow_in_order.
  - rewrite E1; simpl. apply instant_fold_not_in_order.
Qed.

Lemma Normalise_bounded (t : UniversalTime) : bounded (Normalise t).
Proof. apply carry_bounded. Qed.

(** The code's steps against the steps of section 4.1. *)

Lemma TimeOrder_spec_nonneg (t : UniversalTime) :
  TimeOrder t = spec_nonneg t.
Proof.
  destruct t as [d s n]; unfold TimeOrder, spec_nonneg, Qltb; simpl.
  rewrite !Z.gtb_ltb.
  destruct (Qle_bool 0 n);
    destruct (Z.ltb_spec d 0), (Z.eqb_spec d 0), (Z.ltb_spec s 0),
      (Z.eqb_spec s 0), (Z.ltb_spec 0 d), (Z.ltb_spec 0 s);
    simpl; try reflexivity; lia.
Qed.

Lemma borrow_in_order_spec_step2 (t : UniversalTime) :
  borrow_in_order t = spec_step2 t.
Proof. reflexivity. Qed.

Lemma fold_not_in_order_spec_step3 (t : UniversalTime) :
  fold_not_in_order t = spec_step3 t.
Proof.
  unfold fold_not_in_order, spec_step3, Qgtb.
  destruct (Qltb 0 (nanoSeconds t)); rewrite Z.gtb_ltb; reflexivity.
Qed.

Lemma carry_spec_step4 (t : UniversalTime) : carry t = spec_step4 t.
Proof. unfold carry, spec_step4. f_equal. change (60 * 60 * 24) with 86400. lia. Qed.

Lemma instant_spec_Normalise (t : UniversalTime) :
  (instant (spec_Normalise t) == instant t)%Q.
Proof.
  unfold spec_Normalise.
  rewrite <- carry_spec_step4, instant_carry.
  destruct (spec_nonneg t).
  - rewrite <- borrow_in_order_spec_step2. apply instant_borrow_in_order.
  - rewrite <- fold_not_in_order_spec_step3. apply instant_fold_not_in_order.
Qed.

(** ** The sign-consistent form *)

Lemma Qltb_spec (x y : Q) : BoolSpec (x < y)%Q (y <= x)%Q (Qltb x y).
Proof.
  unfold Qltb. destruct (Qle_bool y x) eqn:E; simpl; constructor.
  - apply Qle_bool_iff, E.
  - apply Qnot_le_lt. intros H. apply Qle_bool_iff in H. congruence.
Qed.

Lemma Normalise_carry (t : UniversalTime) :
  Normalise t = carry (sign_phases t).
Proof. reflexivity. Qed.

Lemma Qtrunc_small (x : Q) : (-1 < x < 1)%Q -> Qtrunc x = 0.
Proof.
  destruct x as [p d]; unfold Qtrunc, Qlt; simpl; intros [H1 H2].
  apply Z.quot_small_iff; lia.
Qed.

(** On a bounded triple the carry changes nothing. *)
Lemma carry_small (t : UniversalTime) :
  bounded t ->
  days (carry t) = days t /\ seconds (carry t) = seconds t
  /\ (nanoSeconds (carry t) == nanoSeconds t)%Q.
Proof.
  destruct t as [d s n]; unfold bounded, carry; simpl; intros [Hs Hn].
  rewrite (Qtrunc_small (n / 1000000000)) by (rewrite Qdiv_ns; lra).
  change (60 * 60 * 24) with 86400.
  rewrite Z.add_0_r.
  assert (Hq : Z.quot s 86400 = 0) by (apply Z.quot_small_iff; lia).
  rewrite Hq. split; [lia|]. split; [lia|]. simpl. ring.
Qed.

Lemma TimeOrder_true (t : UniversalTime) :
  TimeOrder t = true <->
  0 < days t \/ (days t = 0 /\ 0 < seconds t)
  \/ (days t = 0 /\ seconds t = 0 /\ (0 <= nanoSeconds t)%Q).
Proof.
  destruct t as [d s n]; unfold TimeOrder; simpl.
  destruct (Z.ltb_spec d 0) as [D1|D1], (Z.eqb_spec d 0) as [D2|D2],
    (Z.ltb_spec s 0) as [S1|S1], (Z.eqb_spec s 0) as [S2|S2],
    (Qltb_spec n 0) as [N1|N1]; simpl;
    split; intros Hx; try reflexivity; try discriminate;
    try lia; try (right; right; repeat split; assumption);
    destruct Hx as [Hx | [[Hx1 Hx2] | [Hx1 [Hx2 Hx3]]]]; try lia; lra.
Qed.

(** The "IN ORDER" block on a bounded, non-negative triple: one borrow
    gives the non-negative form. *)
Lemma borrow_in_order_bounded (t : UniversalTime) :
  bounded t -> TimeOrder t = true ->
  0 <= days (borrow_in_order t)
  /\ 0 <= seconds (borrow_in_order t) < 86400
  /\ (0 <= nanoSeconds (borrow_in_order t) < 1000000000)%Q.
Proof.
  rewrite TimeOrder_true.
  destruct t as [d s n]; unfold bounded, borrow_in_order; simpl.
  intros [Hs Hn] Ho.
  destruct (Qltb_spec n 0); simpl;
    match goal with |- context [?x <? 0] => destruct (Z.ltb_spec x 0) end;
    simpl; (split; [|split]); try lia; try lra;
    destruct Ho as [Ho | [[Ho1 Ho2] | [Ho1 [Ho2 Ho3]]]]; try lia; lra.
Qed.

(** The "NOT IN ORDER" block on a bounded, negative triple: one fold
    gives the non-positive form. *)
Lemma fold_not_in_order_bounded (t : UniversalTime) :
  bounded t -> TimeOrder t = false ->
  days (fold_not_in_order t) <= 0
  /\ -86400 < seconds (fold_not_in_order t) <= 0
  /\ (-1000000000 < nanoSeconds (fold_not_in_order t) <= 0)%Q.
Proof.
  intros Hb Ho.
  assert (Hneg : days t < 0 \/ (days t = 0 /\ seconds t < 0)
                 \/ (days t = 0 /\ seconds t = 0 /\ (nanoSeconds t < 0)%Q)).
  { destruct t as [d s n]; simpl.
    destruct (Z.ltb_spec d 0); [left; lia|].
    destruct (Z.eqb_spec d 0); [|exfalso; apply Bool.diff_false_true;
                                 rewrite <- Ho; apply TimeOrder_true; simpl; left; lia].
    destruct (Z.ltb_spec s 0); [right; left; lia|].
    destruct (Z.eqb_spec s 0).
    - right; right. split; [lia|]. split; [lia|].
      destruct (Qlt_le_dec n 0); [assumption|].
      exfalso; apply Bool.diff_false_true; rewrite <- Ho.
      apply TimeOrder_true; simpl; right; right; auto.
    - exfalso; apply Bool.diff_false_true; rewrite <- Ho.
      apply TimeOrder_true; simpl; right; left; lia. }
  destruct t as [d s n]; unfold bounded, fold_not_in_order, Qgtb in *; simpl in *.
  destruct Hb as [Hs Hn].
  destruct (Qltb_spec 0 n); simpl;
    match goal with |- context [?x >? 0] => destruct (Z.gtb_spec x 0) end;
    simpl; (split; [|split]); try lia; try lra;
    destruct Hneg as [Hg | [[Hg1 Hg2] | [Hg1 [Hg2 Hg3]]]]; try lia; lra.
Qed.

Lemma TimeOrder_nonneg_form (t : UniversalTime) :
  0 <= days t -> 0 <= seconds t -> (0 <= nanoSeconds t)%Q ->
  TimeOrder t = true.
Proof.
  intros Hd Hs Hn. apply TimeOrder_true.
  destruct (Z.eq_dec (days t) 0); [|lia].
  destruct (Z.eq_dec (seconds t) 0); [|lia]. right; right; auto.
Qed.

(** On a bounded triple the sign phases produce the sign-consistent form:
    a single borrow or fold suffices there. *)
Lemma sign_phases_bounded (t : UniversalTime) :
  bounded t -> bounded (sign_phases t) /\ sign_consistent (sign_phases t).
Proof.
  intros Hb. unfold sign_phases, bounded, sign_consistent.
  destruct (TimeOrder t) eqn:E.
  - destruct (borrow_in_order_bounded t Hb E) as [Hd [Hs Hn]].
    rewrite (TimeOrder_nonneg_form (borrow_in_order t)) by (lia || lra).
    simpl. split; [split; [lia | lra] | left; auto].
  - rewrite E. simpl.
    destruct (fold_not_in_order_bounded t Hb E) as [Hd [Hs Hn]].
    split; [split; [lia | lra] | right; auto].
Qed.

(** [Normalise] maps a bounded triple to its sign-consistent form. *)
Lemma Normalise_sign_consistent (t : UniversalTime) :
  bounded t -> sign_consistent (Normalise t).
Proof.
  intros Hb. rewrite Normalise_carry.
  destruct (sign_phases_bounded t Hb) as [Hb' Hc].
  destruct (carry_small _ Hb') as [Hd [Hs Hn]].
  unfold sign_consistent in *. rewrite Hd, Hs, Hn. exact Hc.
Qed.

(** So normalising twice always reaches the sign-consistent form. *)
Lemma Normalise_Normalise_sign_consistent (t : UniversalTime) :
  sign_consistent (Normalise (Normalise t)).
Proof. apply Normalise_sign_consistent, Normalise_bounded. Qed.

(** A sign-consistent triple is left as it is (up to the representation of
    the rational nanoseconds). *)
Lemma sign_phases_id (t : UniversalTime) :
  sign_consistent t -> sign_phases t = t.
Proof.
  intros Hc.
  destruct t as [d s n]; unfold sign_consistent in Hc; simpl in Hc.
  unfold sign_phases.
  destruct (TimeOrder (mkRaw d s n)) eqn:E.
  - pose proof E as E0. apply TimeOrder_true in E; simpl in E.
    assert (Hbo : borrow_in_order (mkRaw d s n) = mkRaw d s n).
    { unfold borrow_in_order; simpl.
      destruct (Qltb_spec n 0) as [N|N].
      - exfalso. destruct Hc as [[? [? [? ?]]] | [? [? [? ?]]]]; [lra|].
        destruct E as [? | [[? ?] | [? [? ?]]]]; [lia | lia | lra].
      - simpl. destruct (Z.ltb_spec s 0); [|reflexivity].
        exfalso. destruct Hc as [[? [? [? ?]]] | [? [? [? ?]]]]; [lia|].
        destruct E as [? | [[? ?] | [? [? ?]]]]; lia. }
    rewrite Hbo, E0. reflexivity.
  - simpl. rewrite E. simpl. unfold fold_not_in_order, Qgtb; simpl.
    destruct (Qltb_spec 0 n) as [N|N].
    + exfalso. destruct Hc as [[? [? [? ?]]] | [? [? [? ?]]]]; [|lra].
      rewrite TimeOrder_nonneg_form in E by (simpl; lia || lra).
      discriminate.
    + simpl. destruct (Z.gtb_spec s 0); [|reflexivity].
      exfalso. destruct Hc as [[? [? [? ?]]] | [? [? [? ?]]]]; [|lia].
      rewrite TimeOrder_nonneg_form in E by (simpl; lia || lra).
      discriminate.
Qed.

Lemma sign_consistent_bounded (t : UniversalTime) :
  sign_consistent t -> bounded t.
Proof.
  unfold sign_consistent, bounded.
  intros [[? [? [? ?]]] | [? [? [? ?]]]]; (split; [lia | lra]).
Qed.

(** Hence [Normalise] leaves a sign-consistent timestamp [==] to itself. *)
Lemma Normalise_sign_consistent_id (t : UniversalTime) :
  sign_consistent t -> eqb (Normalise t) t = true.
Proof.
  intros Hc. rewrite Normalise_carry.
  destruct (carry_small (sign_phases t)) as [Hd [Hs Hn]].
  { rewrite sign_phases_id by exact Hc. apply sign_consistent_bounded, Hc. }
  rewrite sign_phases_id in Hd, Hs, Hn |- * by exact Hc.
  unfold eqb. rewrite Hd, Hs, Z.eqb_refl, Z.eqb_refl. simpl.
  apply Qeq_bool_iff, Hn.
Qed.

(** ** [operator<] and the instants *)

Definition lex_lt (a b : UniversalTime) : Prop :=
  days a < days b
  \/ (days a = days b /\ seconds a < seconds b)
  \/ (days a = days b /\ seconds a = seconds b
      /\ (nanoSeconds a < nanoSeconds b)%Q).

Lemma ltb_lex (a b : UniversalTime) : ltb a b = true <-> lex_lt a b.
Proof.
  destruct a as [da sa na], b as [db sb nb]; unfold ltb, lex_lt, Qgeb; simpl.
  rewrite !Z.gtb_ltb.
  destruct (Z.ltb_spec db da) as [D1|D1], (Z.eqb_spec da db) as [D2|D2],
    (Z.ltb_spec sb sa) as [S1|S1], (Z.eqb_spec sa sb) as [S2|S2],
    (Qle_bool nb na) eqn:N; simpl;
    try (apply Qle_bool_iff in N);
    try (assert (N' : (na < nb)%Q)
           by (apply Qnot_le_lt; intros N'; apply Qle_bool_iff in N';
               congruence));
    split; intros Hx; try reflexivity; try discriminate; try lia;
    try (right; right; repeat split; assumption);
    destruct Hx as [Hx | [[Hx1 Hx2] | [Hx1 [Hx2 Hx3]]]]; try lia; lra.
Qed.

Lemma Zlt_Q1 (x y : Z) : x < y -> (inject_Z x + 1 <= inject_Z y)%Q.
Proof.
  intros H. change 1%Q with (inject_Z 1). rewrite <- inject_Z_plus.
  rewrite <- Zle_Qle. lia.
Qed.

Ltac z_to_q :=
  repeat match goal with
  | H : (?x < ?y)%Z |- _ => apply Zlt_Q1 in H
  | H : (?x <= ?y)%Z |- _ => rewrite Zle_Qle in H
  end;
  change (inject_Z 0) with 0%Q in *;
  change (inject_Z 86400) with 86400%Q in *;
  change (inject_Z (-86400)) with (-86400)%Q in *.

Lemma lex_lt_instant (a b : UniversalTime) :
  sign_consistent a -> sign_consistent b -> lex_lt a b ->
  (instant a < instant b)%Q.
Proof.
  destruct a as [da sa na], b as [db sb nb];
    unfold sign_consistent, lex_lt; simpl.
  rewrite !instant_mkRaw.
  intros [[Ha1 [[Ha2 Ha3] [Ha4 Ha5]]] | [Ha1 [[Ha2 Ha3] [Ha4 Ha5]]]]
         [[Hb1 [[Hb2 Hb3] [Hb4 Hb5]]] | [Hb1 [[Hb2 Hb3] [Hb4 Hb5]]]]
         [Hl | [[Hl1 Hl2] | [Hl1 [Hl2 Hl3]]]];
    try subst db; try subst sb; z_to_q; lra.
Qed.

(** On sign-consistent timestamps [operator<] agrees with the instants. *)
Lemma ltb_instant_sign_consistent (a b : UniversalTime) :
  sign_consistent a -> sign_consistent b ->
  (ltb a b = true <-> (instant a < instant b)%Q).
Proof.
  intros Ha Hb. rewrite ltb_lex. split.
  - apply lex_lt_instant; assumption.
  - intros Hi.
    destruct (Z.lt_trichotomy (days a) (days b)) as [D | [D | D]];
      [left; exact D | | exfalso].
    + destruct (Z.lt_trichotomy (seconds a) (seconds b)) as [S | [S | S]];
        [right; left; auto | | exfalso].
      * destruct (Qlt_le_dec (nanoSeconds a) (nanoSeconds b)) as [N | N];
          [right; right; auto | exfalso].
        destruct (Qle_lt_or_eq _ _ N) as [N' | N'].
        -- apply (Qlt_irrefl (instant a)); apply (Qlt_trans _ (instant b)); [exact Hi|].
           apply lex_lt_instant; auto. right; right; auto.
        -- destruct a as [da sa na], b as [db sb nb]; simpl in *; subst.
           revert Hi. rewrite !instant_mkRaw, N'. apply Qlt_irrefl.
      * apply (Qlt_irrefl (instant a)); apply (Qlt_trans _ (instant b)); [exact Hi|].
        apply lex_lt_instant; auto. right; left; auto.
    + apply (Qlt_irrefl (instant a)); apply (Qlt_trans _ (instant b)); [exact Hi|].
      apply lex_lt_instant; auto. left; auto.
Qed.

(** ** Same-sign inputs of any size *)

Lemma Qtrunc_nonneg (x : Q) :
  (0 <= x)%Q -> 0 <= Qtrunc x /\ (0 <= x - inject_Z (Qtrunc x) < 1)%Q.
Proof.
  destruct x as [p d]; unfold Qtrunc, Qle; simpl; intros Hx.
  pose proof (Z.quot_rem' p (Zpos d)) as Hq.
  pose proof (Z.rem_bound_abs p (Zpos d) ltac:(lia)) as Hr.
  pose proof (Z.rem_nonneg p (Zpos d) ltac:(lia) ltac:(lia)) as Hr0.
  set (q := Z.quot p (Zpos d)) in *.
  set (r := Z.rem p (Zpos d)) in *.
  unfold Qlt, Qle, Qminus, Qplus, Qopp, inject_Z; simpl.
  split; [nia | split; nia].
Qed.

Lemma Qtrunc_nonpos (x : Q) :
  (x <= 0)%Q -> Qtrunc x <= 0 /\ (-1 < x - inject_Z (Qtrunc x) <= 0)%Q.
Proof.
  destruct x as [p d]; unfold Qtrunc, Qle; simpl; intros Hx.
  pose proof (Z.quot_rem' p (Zpos d)) as Hq.
  pose proof (Z.rem_bound_abs p (Zpos d) ltac:(lia)) as Hr.
  pose proof (Z.rem_nonpos p (Zpos d) ltac:(lia) ltac:(lia)) as Hr0.
  set (q := Z.quot p (Zpos d)) in *.
  set (r := Z.rem p (Zpos d)) in *.
  unfold Qlt, Qle, Qminus, Qplus, Qopp, inject_Z; simpl.
  split; [nia | split; nia].
Qed.

Lemma carry_nonneg (t : UniversalTime) :
  0 <= days t -> 0 <= seconds t -> (0 <= nanoSeconds t)%Q ->
  0 <= days (carry t) /\ 0 <= seconds (carry t) < 86400
  /\ (0 <= nanoSeconds (carry t) < 1000000000)%Q.
Proof.
  destruct t as [d s n]; unfold carry; simpl; intros Hd Hs Hn.
  destruct (Qtrunc_nonneg (n / 1000000000)) as [Hq0 Hq];
    [rewrite Qdiv_ns; lra|].
  set (q := Qtrunc (n / 1000000000)%Q) in *.
  rewrite Qdiv_ns in Hq.
  change (60 * 60 * 24) with 86400.
  pose proof (Z.quot_rem' (s + q) 86400) as Hz.
  pose proof (Z.rem_bound_abs (s + q) 86400 ltac:(lia)) as Hr.
  pose proof (Z.rem_nonneg (s + q) 86400 ltac:(lia) ltac:(lia)) as Hr0.
  split; [lia|]. split; [lia|]. lra.
Qed.

Lemma carry_nonpos (t : UniversalTime) :
  days t <= 0 -> seconds t <= 0 -> (nanoSeconds t <= 0)%Q ->
  days (carry t) <= 0 /\ -86400 < seconds (carry t) <= 0
  /\ (-1000000000 < nanoSeconds (carry t) <= 0)%Q.
Proof.
  destruct t as [d s n]; unfold carry; simpl; intros Hd Hs Hn.
  destruct (Qtrunc_nonpos (n / 1000000000)) as [Hq0 Hq];
    [rewrite Qdiv_ns; lra|].
  set (q := Qtrunc (n / 1000000000)%Q) in *.
  rewrite Qdiv_ns in Hq.
  change (60 * 60 * 24) with 86400.
  pose proof (Z.quot_rem' (s + q) 86400) as Hz.
  pose proof (Z.rem_bound_abs (s + q) 86400 ltac:(lia)) as Hr.
  pose proof (Z.rem_nonpos (s + q) 86400 ltac:(lia) ltac:(lia)) as Hr0.
  split; [lia|]. split; [lia|]. lra.
Qed.

(** The sign phases leave a triple whose components share a sign. *)
Lemma sign_phases_same_sign (t : UniversalTime) :
  same_sign t -> sign_phases t = t.
Proof.
  intros Hc.
  destruct t as [d s n]; unfold same_sign in Hc; simpl in Hc.
  unfold sign_phases.
  destruct (TimeOrder (mkRaw d s n)) eqn:E.
  - pose proof E as E0. apply TimeOrder_true in E; simpl in E.
    assert (Hbo : borrow_in_order (mkRaw d s n) = mkRaw d s n).
    { unfold borrow_in_order; simpl.
      destruct (Qltb_spec n 0) as [N|N].
      - exfalso. destruct Hc as [[? [? ?]] | [? [? ?]]]; [lra|].
        destruct E as [? | [[? ?] | [? [? ?]]]]; [lia | lia | lra].
      - simpl. destruct (Z.ltb_spec s 0); [|reflexivity].
        exfalso. destruct Hc as [[? [? ?]] | [? [? ?]]]; [lia|].
        destruct E as [? | [[? ?] | [? [? ?]]]]; lia. }
    rewrite Hbo, E0. reflexivity.
  - simpl. rewrite E. simpl. unfold fold_not_in_order, Qgtb; simpl.
    destruct (Qltb_spec 0 n) as [N|N].
    + exfalso. destruct Hc as [[? [? ?]] | [? [? ?]]]; [|lra].
      rewrite TimeOrder_nonneg_form in E by (simpl; lia || lra).
      discriminate.
    + simpl. destruct (Z.gtb_spec s 0); [|reflexivity].
      exfalso. destruct Hc as [[? [? ?]] | [? [? ?]]]; [|lia].
      rewrite TimeOrder_nonneg_form in E by (simpl; lia || lra).
      discriminate.
Qed.

Lemma Normalise_same_sign (t : UniversalTime) :
  same_sign t -> sign_consistent (Normalise t).
Proof.
  intros Hc. rewrite Normalise_carry, sign_phases_same_sign by exact Hc.
  unfold sign_consistent.
  destruct Hc as [[Hd [Hs Hn]] | [Hd [Hs Hn]]].
  - left. apply carry_nonneg; assumption.
  - right. apply carry_nonpos; assumption.
Qed.

(** ** [operator==] and representations of one rational *)

Lemma eqb_iff (a b : UniversalTime) :
  eqb a b = true <->
  days a = days b /\ seconds a = seconds b
  /\ (nanoSeconds a == nanoSeconds b)%Q.
Proof.
  unfold eqb. rewrite !andb_true_iff, !Z.eqb_eq, Qeq_bool_iff. tauto.
Qed.

Lemma Qltb_compat (x x' y y' : Q) :
  (x == x')%Q -> (y == y')%Q -> Qltb x y = Qltb x' y'.
Proof.
  intros Hx Hy. unfold Qltb. f_equal.
  destruct (Qle_bool y x) eqn:E1, (Qle_bool y' x') eqn:E2; auto;
    [apply Qle_bool_iff in E1 | apply Qle_bool_iff in E2];
    [rewrite Hx, Hy in E1 | rewrite <- Hx, <- Hy in E2];
    apply Qle_bool_iff in E1 || apply Qle_bool_iff in E2; congruence.
Qed.

Lemma Qtrunc_compat (x y : Q) : (x == y)%Q -> Qtrunc x = Qtrunc y.
Proof.
  destruct x as [p d], y as [p' d']; unfold Qeq, Qtrunc; simpl; intros H.
  rewrite <- (Z.quot_mul_cancel_r p (Zpos d) (Zpos d')) by lia.
  rewrite <- (Z.quot_mul_cancel_r p' (Zpos d') (Zpos d)) by lia.
  rewrite H, (Z.mul_comm (Zpos d) (Zpos d')). reflexivity.
Qed.

Ltac eqb_hyp :=
  match goal with
  | |- eqb ?a ?b = true -> _ =>
      destruct a as [d s n], b as [d' s' n'];
      rewrite eqb_iff; simpl; intros [Hd [Hs Hn]]; subst d' s'
  end.

Lemma TimeOrder_eqb (a b : UniversalTime) :
  eqb a b = true -> TimeOrder a = TimeOrder b.
Proof.
  eqb_hyp. unfold TimeOrder; simpl.
  rewrite (Qltb_compat n n' 0 0 Hn (Qeq_refl 0)). reflexivity.
Qed.

Lemma borrow_in_order_eqb (a b : UniversalTime) :
  eqb a b = true -> eqb (borrow_in_order a) (borrow_in_order b) = true.
Proof.
  eqb_hyp. unfold borrow_in_order; simpl.
  rewrite (Qltb_compat n n' 0 0 Hn (Qeq_refl 0)).
  destruct (Qltb n' 0); simpl; destruct (_ <? 0); apply eqb_iff; simpl;
    repeat split; rewrite ?Hn; reflexivity.
Qed.

Lemma fold_not_in_order_eqb (a b : UniversalTime) :
  eqb a b = true -> eqb (fold_not_in_order a) (fold_not_in_order b) = true.
Proof.
  eqb_hyp. unfold fold_not_in_order, Qgtb; simpl.
  rewrite (Qltb_compat 0 0 n n' (Qeq_refl 0) Hn).
  destruct (Qltb 0 n'); simpl; destruct (_ >? 0); apply eqb_iff; simpl;
    repeat split; rewrite ?Hn; reflexivity.
Qed.

Lemma carry_eqb (a b : UniversalTime) :
  eqb a b = true -> eqb (carry a) (carry b) = true.
Proof.
  eqb_hyp. unfold carry; simpl.
  rewrite (Qtrunc_compat (n / 1000000000) (n' / 1000000000))
    by (rewrite Hn; reflexivity).
  apply eqb_iff; simpl. repeat split. rewrite Hn. reflexivity.
Qed.

(** [Normalise] gives [==] results on triples that are [==]. *)
Lemma Normalise_eqb (a b : UniversalTime) :
  eqb a b = true -> eqb (Normalise a) (Normalise b) = true.
Proof.
  intros H. unfold Normalise.
  apply carry_eqb.
  assert (H1 : eqb (if TimeOrder a then borrow_in_order a else a)
                   (if TimeOrder b then borrow_in_order b else b) = true).
  { rewrite (TimeOrder_eqb a b H).
    destruct (TimeOrder b); [apply borrow_in_order_eqb|]; exact H. }
  rewrite (TimeOrder_eqb _ _ H1).
  destruct (negb _); [apply fold_not_in_order_eqb|]; exact H1.
Qed.

(** ** Sums and differences *)

Lemma instant_plus (a b : UniversalTime) :
  (instant (plus a b) == instant a + instant b)%Q.
Proof.
  destruct a as [da sa na], b as [db sb nb].
  unfold plus, add_assign. rewrite instant_Normalise. simpl. instant_step.
Qed.

Lemma instant_minus (a b : UniversalTime) :
  (instant (minus a b) == instant a - instant b)%Q.
Proof.
  destruct a as [da sa na], b as [db sb nb].
  unfold minus, sub_assign. rewrite instant_Normalise. simpl. instant_step.
Qed.

(** A sign-consistent timestamp is determined by its instant. *)
Lemma sign_consistent_eqb_of_instant (a b : UniversalTime) :
  sign_consistent a -> sign_consistent b ->
  (instant a == instant b)%Q -> eqb a b = true.
Proof.
  intros Ha Hb Hi.
  assert (Hab : ~ lex_lt a b).
  { intros Hl. apply (Qlt_irrefl (instant a)). rewrite Hi at 2.
    apply lex_lt_instant; assumption. }
  assert (Hba : ~ lex_lt b a).
  { intros Hl. apply (Qlt_irrefl (instant a)). rewrite Hi at 1.
    apply lex_lt_instant; assumption. }
  unfold lex_lt in Hab, Hba.
  apply eqb_iff.
  assert (Hd : days a = days b) by lia.
  assert (Hs : seconds a = seconds b) by lia.
  split; [exact Hd|]. split; [exact Hs|].
  destruct (Qlt_le_dec (nanoSeconds a) (nanoSeconds b)) as [N|N];
    [exfalso; apply Hab; right; right; auto|].
  destruct (Qle_lt_or_eq _ _ N) as [N'|N'];
    [exfalso; apply Hba; right; right; auto | symmetry; exact N'].
Qed.

Ltac sign_case :=
  first [ apply Normalise_sign_consistent; unfold bounded; simpl;
          split; [lia | lra]
        | apply Normalise_same_sign; unfold same_sign; simpl;
          left; split; [lia | split; [lia | lra]]
        | apply Normalise_same_sign; unfold same_sign; simpl;
          right; split; [lia | split; [lia | lra]] ].

(** Sign-consistent timestamps are closed under [+=] and [-=]. *)
Lemma plus_minus_sign_consistent (a b : UniversalTime) :
  sign_consistent a -> sign_consistent b ->
  sign_consistent (plus a b) /\ sign_consistent (minus a b).
Proof.
  destruct a as [da sa na], b as [db sb nb]; unfold sign_consistent; simpl.
  intros [[Ha1 [[Ha2 Ha3] [Ha4 Ha5]]] | [Ha1 [[Ha2 Ha3] [Ha4 Ha5]]]]
         [[Hb1 [[Hb2 Hb3] [Hb4 Hb5]]] | [Hb1 [[Hb2 Hb3] [Hb4 Hb5]]]];
    unfold plus, minus, add_assign, sub_assign; simpl;
    (split; [sign_case | sign_case]).
Qed.

(** ** [operator==], the comparisons and the instant *)

Lemma eqb_sym (a b : UniversalTime) : eqb a b = eqb b a.
Proof.
  apply eq_true_iff_eq. rewrite !eqb_iff.
  split; intros [Hd [Hs Hn]]; repeat split; auto; symmetry; exact Hn.
Qed.

Lemma eqb_instant (a b : UniversalTime) :
  eqb a b = true -> (instant a == instant b)%Q.
Proof.
  destruct a as [da sa na], b as [db sb nb]; rewrite eqb_iff; simpl.
  intros [-> [-> Hn]]. unfold instant; simpl. rewrite Hn. reflexivity.
Qed.

Lemma eqb_instant_sign_consistent (a b : UniversalTime) :
  sign_consistent a -> sign_consistent b ->
  (eqb a b = true <-> (instant a == instant b)%Q).
Proof.
  intros Ha Hb. split; [apply eqb_instant|].
  apply sign_consistent_eqb_of_instant; assumption.
Qed.

Lemma leb_instant_sign_consistent (a b : UniversalTime) :
  sign_consistent a -> sign_consistent b ->
  (leb a b = true <-> (instant a <= instant b)%Q).
Proof.
  intros Ha Hb. unfold leb. rewrite orb_true_iff.
  rewrite (ltb_instant_sign_consistent a b Ha Hb).
  rewrite (eqb_instant_sign_consistent a b Ha Hb).
  split.
  - intros [H | H]; [apply Qlt_le_weak, H | rewrite H; apply Qle_refl].
  - intros H. destruct (Qle_lt_or_eq _ _ H); [left | right]; assumption.
Qed.

Lemma lex_trichotomy (a b : UniversalTime) :
  lex_lt a b \/ eqb a b = true \/ lex_lt b a.
Proof.
  destruct a as [da sa na], b as [db sb nb]; unfold lex_lt;
    rewrite eqb_iff; simpl.
  destruct (Z.lt_trichotomy da db) as [D | [D | D]]; [left; left; exact D| |
    right; right; left; exact D].
  subst db.
  destruct (Z.lt_trichotomy sa sb) as [S | [S | S]];
    [left; right; left; split; auto | |
     right; right; right; left; split; auto].
  subst sb.
  destruct (Q_dec na nb) as [[N | N] | N];
    [left; right; right; repeat split; auto
    | right; right; right; right; repeat split; auto
    | right; left; repeat split; auto].
Qed.

Lemma lex_lt_asym (a b : UniversalTime) : lex_lt a b -> ~ lex_lt b a.
Proof.
  destruct a as [da sa na], b as [db sb nb]; unfold lex_lt; simpl.
  intros [H | [[H1 H2] | [H1 [H2 H3]]]] [G | [[G1 G2] | [G1 [G2 G3]]]];
    first [lia | lra].
Qed.

Lemma lex_lt_not_eqb (a b : UniversalTime) :
  lex_lt a b -> eqb a b = false.
Proof.
  intros H. destruct (eqb a b) eqn:E; [exfalso|reflexivity].
  revert H E. destruct a as [da sa na], b as [db sb nb]; unfold lex_lt;
    rewrite eqb_iff; simpl.
  intros [H | [[H1 H2] | [H1 [H2 H3]]]] [G1 [G2 G3]]; first [lia | lra].
Qed.

Lemma lex_lt_trans (a b c : UniversalTime) :
  lex_lt a b -> lex_lt b c -> lex_lt a c.
Proof.
  destruct a as [da sa na], b as [db sb nb], c as [dc sc nc];
    unfold lex_lt; simpl.
  intros [H | [[H1 H2] | [H1 [H2 H3]]]] [G | [[G1 G2] | [G1 [G2 G3]]]];
    first [ left; lia
          | right; left; split; lia
          | right; right; split; [lia | split; [lia | lra]] ].
Qed.

Lemma instant_UT0 : (instant UT0 == 0)%Q.
Proof. vm_compute. reflexivity. Qed.

Lemma UT0_sign_consistent : sign_consistent UT0.
Proof. unfold sign_consistent; simpl. left. split; [lia | split; [lia | lra]]. Qed.

(** [a -= a] gives zero, whatever the representation of [a]. *)
Lemma sub_assign_self_UT0 (a : UniversalTime) :
  eqb (sub_assign a a) UT0 = true.
Proof.
  unfold sub_assign.
  assert (E : eqb (mkRaw (days a - days a) (seconds a - seconds a)
                         (nanoSeconds a - nanoSeconds a)) UT0 = true)
    by (apply eqb_iff; simpl; split; [lia | split; [lia | ring]]).
  pose proof (Normalise_eqb _ _ E) as H.
  replace (Normalise UT0) with UT0 in H by (vm_compute; reflexivity).
  exact H.
Qed.

(** Concrete rational bounds, decided by evaluation. *)
Ltac q_concrete :=
  first [ apply Qle_bool_iff; reflexivity
        | vm_compute; reflexivity
        | vm_compute; discriminate ].

Ltac sc_concrete :=
  unfold sign_consistent; simpl;
  first [ left; split; [lia | split; [lia | split; q_concrete]]
        | right; split; [lia | split; [lia | split; q_concrete]] ].

(** A sign-consistent timestamp is canonical when its instant is not
    negative, and in the mirrored form when it is. *)
Lemma sign_consistent_forms (t : UniversalTime) :
  sign_consistent t ->
  ((0 <= instant t)%Q -> canonical t)
  /\ ((instant t < 0)%Q -> canonical_neg t).
Proof.
  destruct t as [d s n]; unfold sign_consistent, canonical, canonical_neg;
    simpl; rewrite instant_mkRaw.
  intros [[C1 [[C2 C3] [C4 C5]]] | [C1 [[C2 C3] [C4 C5]]]].
  - split; intros Hi.
    + split; [lia | split; assumption].
    + exfalso. rewrite Zle_Qle in C1, C2.
      change (inject_Z 0) with 0%Q in C1, C2. lra.
  - split; intros Hi.
    + assert (Hs : 0 <= s).
      { destruct (Z.le_gt_cases 0 s) as [H | H]; [exact H|].
        exfalso. apply Zlt_Q1 in H. rewrite Zle_Qle in C1.
        change (inject_Z 0) with 0%Q in C1, H. lra. }
      assert (Hn : (0 <= n)%Q).
      { rewrite Zle_Qle in C1, C3.
        change (inject_Z 0) with 0%Q in C1, C3. lra. }
      split; [lia | split; [exact Hn | lra]].
    + split; [lia | split; assumption].
Qed.

(** * Claims *)

(** ** C1: construction and normalisation *)



(** ** C2: borrow at the epoch *)

(** C2 (counterexample): [UniversalTime(0,0,0) - UniversalTime(0,0,1.0)]
    does not borrow a day: it is not [(-1, 86399, 999999999.0)]. *)
Lemma C2_no_day_borrowed :
  ~ (days (minus (UT 0 0 0) (UT 0 0 1.0)) = -1
     /\ seconds (minus (UT 0 0 0) (UT 0 0 1.0)) = 86399
     /\ (nanoSeconds (minus (UT 0 0 0) (UT 0 0 1.0)) == 999999999.0)%Q).
Proof. vm_compute. intros [H _]. discriminate H. Qed.

(** C2 (amended): [UniversalTime(0,0,0) - UniversalTime(0,0,1.0)] is the
    triple [(0, 0, -1.0)]: the negative instant is kept with non-positive
    components. *)
Theorem minus_epoch_one_ns :
  days (minus (UT 0 0 0) (UT 0 0 1.0)) = 0
  /\ seconds (minus (UT 0 0 0) (UT 0 0 1.0)) = 0
  /\ (nanoSeconds (minus (UT 0 0 0) (UT 0 0 1.0)) == -1)%Q.
Proof. vm_compute. repeat split; reflexivity. Qed.

(** ** C5: the fuzz example *)

(** C5 (counterexample): the nanoseconds of
    [UniversalTime(0, 62310, 1.5477e6) - UniversalTime(0, 62309, 9.93522e8)]
    are not near [67178000.0]: they are more than [5.9e7] below it. *)
Lemma C5_not_67178000 :
  (nanoSeconds (minus (UT 0 62310 1.5477e6) (UT 0 62309 9.93522e8))
   + 59000000 < 67178000)%Q.
Proof. vm_compute. reflexivity. Qed.

(** C5 (amended): the difference is [(0, 0, 8025700.0)], and [8025700.0]
    is [1.5477e6 - 9.93522e8 + 1e9]. *)
Theorem minus_fuzz_example :
  days (minus (UT 0 62310 1.5477e6) (UT 0 62309 9.93522e8)) = 0
  /\ seconds (minus (UT 0 62310 1.5477e6) (UT 0 62309 9.93522e8)) = 0
  /\ (nanoSeconds (minus (UT 0 62310 1.5477e6) (UT 0 62309 9.93522e8))
      == 1.5477e6 - 9.93522e8 + 1e9)%Q
  /\ (nanoSeconds (minus (UT 0 62310 1.5477e6) (UT 0 62309 9.93522e8))
      == 8025700)%Q.
Proof. vm_compute. repeat split; reflexivity. Qed.

(** ** C9: the fuzz range of [main.C] *)

(** C9 (counterexample): [UniversalTime(0, -100000, 0)] lies in the range
    [days in [-100,100]], [seconds in [-100000,100000]],
    [nanoseconds in [-1e9,1e9]] and normalises to [(-1, -13600, 0)],
    which is not canonical. *)
Lemma C9_in_range_not_canonical :
  days (UT 0 (-100000) 0) = -1 /\ seconds (UT 0 (-100000) 0) = -13600
  /\ ~ canonical (UT 0 (-100000) 0).
Proof.
  vm_compute. split; [reflexivity|]. split; [reflexivity|].
  intros [[H _] _]. apply H. reflexivity.
Qed.

(** C9 (amended): [Normalise] is a straight-line total function (a plain
    [Definition], no recursion).  For every input with [days in [-100,100]],
    [seconds in [-100000,100000]] and [nanoseconds in [-1e9,1e9]] that
    either has [|seconds| < 86400] and [|nanoseconds| < 1e9] or has all
    three components of one sign, it yields the canonical form when the
    instant is not negative and the mirrored form when it is negative,
    keeps the instant, and gives [days in [-102,102]]. *)
Theorem UT_fuzz_range (d s : Z) (n : Q)
  (Hd : -100 <= d <= 100) (Hs : -100000 <= s <= 100000)
  (Hn : (-1000000000 <= n <= 1000000000)%Q)
  (Hf : bounded (mkRaw d s n) \/ same_sign (mkRaw d s n)) :
  ((0 <= instant (mkRaw d s n))%Q -> canonical (UT d s n))
  /\ ((instant (mkRaw d s n) < 0)%Q -> canonical_neg (UT d s n))
  /\ (instant (UT d s n) == instant (mkRaw d s n))%Q
  /\ -102 <= days (UT d s n) <= 102.
Proof.
  pose proof (Normalise_bounded (mkRaw d s n)) as Hb.
  pose proof (instant_Normalise (mkRaw d s n)) as Hi.
  assert (Hc : sign_consistent (Normalise (mkRaw d s n)))
    by (destruct Hf as [Hf | Hf];
        [apply Normalise_sign_consistent | apply Normalise_same_sign];
        exact Hf).
  destruct (sign_consistent_forms _ Hc) as [Hp Hm].
  fold (UT d s n) in Hb, Hi, Hp, Hm.
  split; [intros H; apply Hp; rewrite Hi; exact H|].
  split; [intros H; apply Hm; rewrite Hi; exact H|].
  split; [exact Hi|].
  destruct (UT d s n) as [D S N]; unfold bounded in Hb; simpl in *.
  rewrite !instant_mkRaw in Hi.
  destruct Hb as [[HS1 HS2] HN].
  rewrite Zlt_Qlt in HS1, HS2.
  destruct Hd as [Hd1 Hd2]; destruct Hs as [Hs1 Hs2].
  rewrite Zle_Qle in Hd1, Hd2, Hs1, Hs2.
  change (inject_Z (-86400)) with (-86400)%Q in HS1.
  change (inject_Z 86400) with 86400%Q in HS2.
  change (inject_Z (-100)) with (-100)%Q in Hd1.
  change (inject_Z 100) with 100%Q in Hd2.
  change (inject_Z (-100000)) with (-100000)%Q in Hs1.
  change (inject_Z 100000) with 100000%Q in Hs2.
  split.
  - assert (-103 < inject_Z D)%Q as H by lra.
    change (-103)%Q with (inject_Z (-103)) in H.
    rewrite <- Zlt_Qlt in H. lia.
  - assert (inject_Z D < 103)%Q as H by lra.
    change 103%Q with (inject_Z 103) in H.
    rewrite <- Zlt_Qlt in H. lia.
Qed.

(** ** C3: [Normalise] against the algorithm of section 4.1 *)

(** C3 (counterexample): on the raw triple [(1, -100000, -5e8)], the
    borrow phase turns the triple negative; the code's second, fresh
    [TimeOrder()] test then also runs the fold phase, while the single
    sign test of section 4.1 does not.  The seconds differ. *)
Lemma C3_second_sign_test_differs :
  seconds (UT 1 (-100000) (-500000000)) = -13600
  /\ seconds (spec_Normalise (mkRaw 1 (-100000) (-500000000))) = -13601.
Proof. vm_compute. split; reflexivity. Qed.

(** C3 (amended): [Normalise] is the algorithm of section 4.1 except that
    its fold phase is guarded by a fresh sign test on the triple left by
    the borrow phase.  On inputs where the code keeps [Int_t] and its
    [static_cast<int>] in range ([int_domain]), the two coincide whenever
    the borrow phase leaves the outcome of the sign test unchanged (in
    particular whenever the incoming triple is negative), and they always
    denote the same instant. *)
Theorem Normalise_refines_spec (t : UniversalTime) (Hr : int_domain t) :
  (instant (Normalise t) == instant (spec_Normalise t))%Q
  /\ (TimeOrder (if TimeOrder t then borrow_in_order t else t) = TimeOrder t ->
      Normalise t = spec_Normalise t).
Proof.
  split.
  - rewrite instant_Normalise, instant_spec_Normalise. reflexivity.
  - intros H. unfold Normalise, spec_Normalise.
    rewrite <- TimeOrder_spec_nonneg, <- carry_spec_step4.
    destruct (TimeOrder t) eqn:E; rewrite H; simpl.
    + reflexivity.
    + rewrite fold_not_in_order_spec_step3. reflexivity.
Qed.

(** ** C4, C6, C7, C8: one timestamp that [Normalise] leaves mixed-signed

    [UniversalTime(2, -100000, 0)] denotes [72800] seconds.  [Normalise]
    borrows a day only once (line 233) and then carries with truncation,
    so the constructed object is [(1, -13600, 0)], with days and seconds
    of opposite signs.  Normalising it again gives [(0, 72800, 0)]. *)

(** C4 (code evaluated at the failing input): [UniversalTime(2,-100000,0)]
    compares greater than [UniversalTime(0,80000,0)] although it denotes
    the earlier instant. *)
Theorem order_disagrees_with_instant :
  days (UT 2 (-100000) 0) = 1 /\ seconds (UT 2 (-100000) 0) = -13600
  /\ gtb (UT 2 (-100000) 0) (UT 0 80000 0) = true
  /\ ltb (UT 2 (-100000) 0) (UT 0 80000 0) = false
  /\ (instant (UT 2 (-100000) 0) < instant (UT 0 80000 0))%Q.
Proof. vm_compute. repeat split; reflexivity. Qed.

(** C6 (code evaluated at the failing input): with
    [a = UniversalTime(2,-100000,0)] and [b = UniversalTime(0,0,0)],
    [(a + b) - b] is [(0, 72800, 0)], which is not [== a], although both
    denote the same instant. *)
Theorem plus_minus_not_inverse :
  days (minus (plus (UT 2 (-100000) 0) (UT 0 0 0)) (UT 0 0 0)) = 0
  /\ seconds (minus (plus (UT 2 (-100000) 0) (UT 0 0 0)) (UT 0 0 0)) = 72800
  /\ eqb (minus (plus (UT 2 (-100000) 0) (UT 0 0 0)) (UT 0 0 0))
         (UT 2 (-100000) 0) = false
  /\ (instant (minus (plus (UT 2 (-100000) 0) (UT 0 0 0)) (UT 0 0 0))
      == instant (UT 2 (-100000) 0))%Q.
Proof. vm_compute. repeat split; reflexivity. Qed.

(** C7 (code evaluated at the failing input):
    [UniversalTime(0,0,0) + UniversalTime(2,-100000,0)] is not [==]
    [UniversalTime(2,-100000,0)]. *)
Theorem zero_plus_not_identity :
  plus (UT 0 0 0) (UT 2 (-100000) 0) = mkRaw 0 72800 0
  /\ eqb (plus (UT 0 0 0) (UT 2 (-100000) 0)) (UT 2 (-100000) 0) = false.
Proof. vm_compute. split; reflexivity. Qed.

(** C8 (code evaluated at the failing input): the raw triples
    [(2, -100000, 0)] and [(0, 72800, 0)] denote the same instant, but the
    objects constructed from them are not [==]. *)
Theorem same_instant_not_equal :
  (instant (mkRaw 2 (-100000) 0) == instant (mkRaw 0 72800 0))%Q
  /\ eqb (UT 2 (-100000) 0) (UT 0 72800 0) = false.
Proof. vm_compute. split; reflexivity. Qed.

(** ** C10: [operator+] and [operator--] leave their operands alone *)

(** C10: for objects [a] at [la] and [b] at [lb] (possibly the same
    object), evaluating [a + b] or [a.operator--(b)] leaves both operands
    as they were; the result is a fresh temporary holding [a + b],
    respectively [a - b]. *)
Theorem operands_unchanged (h : store) (la lb : loc) (a b : UniversalTime)
  (Ha : h !! la = Some a) (Hb : h !! lb = Some b) :
  (exists h' r, plus_at h la lb = Some (h', r)
     /\ h' !! la = Some a /\ h' !! lb = Some b
     /\ h' !! r = Some (plus a b) /\ r <> la /\ r <> lb)
  /\ (exists h' r, minus_at h la lb = Some (h', r)
     /\ h' !! la = Some a /\ h' !! lb = Some b
     /\ h' !! r = Some (minus a b) /\ r <> la /\ r <> lb).
Proof.
  assert (Hfa : fresh (dom h) <> la).
  { intros E. apply (is_fresh (dom h)). rewrite E, elem_of_dom, Ha. by eexists. }
  assert (Hfb : fresh (dom h) <> lb).
  { intros E. apply (is_fresh (dom h)). rewrite E, elem_of_dom, Hb. by eexists. }
  unfold plus_at, minus_at, copy_at, add_assign_at, sub_assign_at.
  rewrite Ha; simpl.
  rewrite lookup_insert_eq, lookup_insert_ne by congruence; rewrite Hb; simpl.
  split; eexists _, _; (split; [reflexivity|]);
    rewrite !lookup_insert_ne by congruence;
    rewrite ?lookup_insert_eq; auto.
Qed.

(** * Witnesses: the hypotheses of the claim theorems are satisfiable *)

Lemma UT_fuzz_range_witness :
  (-100 <= 2 <= 100 /\ -100000 <= 50000 <= 100000
   /\ (-1000000000 <= -500000000 <= 1000000000)%Q
   /\ (bounded (mkRaw 2 50000 (-500000000))
       \/ same_sign (mkRaw 2 50000 (-500000000))))
  /\ ((0 <= instant (mkRaw 2 50000 (-500000000)))%Q ->
      canonical (UT 2 50000 (-500000000)))
  /\ ((instant (mkRaw 2 50000 (-500000000)) < 0)%Q ->
      canonical_neg (UT 2 50000 (-500000000)))
  /\ (instant (UT 2 50000 (-500000000))
      == instant (mkRaw 2 50000 (-500000000)))%Q
  /\ -102 <= days (UT 2 50000 (-500000000)) <= 102.
Proof.
  assert (Hn : (-1000000000 <= -500000000 <= 1000000000)%Q)
    by (split; q_concrete).
  assert (Hf : bounded (mkRaw 2 50000 (-500000000))
               \/ same_sign (mkRaw 2 50000 (-500000000)))
    by (left; unfold bounded; simpl; split; [lia | split; q_concrete]).
  split.
  - split; [lia|]. split; [lia|]. split; [exact Hn | exact Hf].
  - apply (UT_fuzz_range 2 50000 (-500000000)); [lia | lia | exact Hn | exact Hf].
Defined.


Lemma Normalise_refines_spec_witness :
  int_domain (mkRaw 1 0 (-500000000))
  /\ TimeOrder (if TimeOrder (mkRaw 1 0 (-500000000))
             then borrow_in_order (mkRaw 1 0 (-500000000))
             else mkRaw 1 0 (-500000000))
  = TimeOrder (mkRaw 1 0 (-500000000))
  /\ Normalise (mkRaw 1 0 (-500000000))
     = spec_Normalise (mkRaw 1 0 (-500000000)).
Proof.
  split; [unfold int_domain; simpl; split; [lia | q_concrete]|].
  split.
  - vm_compute. reflexivity.
  - assert (Hr : int_domain (mkRaw 1 0 (-500000000)))
      by (unfold int_domain; simpl; split; [lia | q_concrete]).
    apply (proj2 (Normalise_refines_spec (mkRaw 1 0 (-500000000)) Hr)).
    vm_compute. reflexivity.
Defined.

Lemma operands_unchanged_witness :
  (<[1%positive := UT 0 0 0]> (<[2%positive := UT 1 2 3]> ∅) : store)
      !! 1%positive = Some (UT 0 0 0)
  /\ (<[1%positive := UT 0 0 0]> (<[2%positive := UT 1 2 3]> ∅) : store)
      !! 2%positive = Some (UT 1 2 3)
  /\ (exists h' r,
        plus_at (<[1%positive := UT 0 0 0]> (<[2%positive := UT 1 2 3]> ∅))
          1%positive 2%positive = Some (h', r)
        /\ h' !! 1%positive = Some (UT 0 0 0)
        /\ h' !! 2%positive = Some (UT 1 2 3)
        /\ h' !! r = Some (plus (UT 0 0 0) (UT 1 2 3))
        /\ r <> 1%positive /\ r <> 2%positive).
Proof.
  assert (H1 : (<[1%positive := UT 0 0 0]> (<[2%positive := UT 1 2 3]> ∅) : store)
                 !! 1%positive = Some (UT 0 0 0))
    by (rewrite lookup_insert_eq; reflexivity).
  assert (H2 : (<[1%positive := UT 0 0 0]> (<[2%positive := UT 1 2 3]> ∅) : store)
                 !! 2%positive = Some (UT 1 2 3))
    by (rewrite lookup_insert_ne, lookup_insert_eq by lia; reflexivity).
  split; [exact H1|]. split; [exact H2|].
  exact (proj1 (operands_unchanged _ _ _ _ _ H1 H2)).
Defined.

(** * Further properties of the code *)

(** X1: [Normalise] turns every triple with [|seconds| < 86400] and
    [|nanoSeconds| < 1e9], whatever the signs of its components, into the
    sign-consistent form. *)
Theorem Normalise_bounded_gives_sign_consistent (t : UniversalTime) :
  bounded t -> sign_consistent (Normalise t).
Proof. apply Normalise_sign_consistent. Qed.

(** X2: a triple whose components are all non-negative, or all
    non-positive, with [|nanoSeconds| <= 1e9], is brought to the
    sign-consistent form by one [Normalise], for seconds of any size that
    keeps the code within [Int_t]. *)
Theorem Normalise_same_sign_gives_sign_consistent (t : UniversalTime) :
  same_sign t -> int_domain t ->
  (-1000000000 <= nanoSeconds t <= 1000000000)%Q ->
  sign_consistent (Normalise t).
Proof. intros H _ _. apply Normalise_same_sign, H. Qed.

(** X3: two runs of [Normalise] reach the sign-consistent form from any
    triple on which the code keeps [Int_t] and its casts in range. *)
Theorem Normalise_twice_sign_consistent (t : UniversalTime) :
  int_domain t -> sign_consistent (Normalise (Normalise t)).
Proof. intros _. apply Normalise_sign_consistent, Normalise_bounded. Qed.

(** X4: [Normalise] leaves a sign-consistent triple [operator==] to
    itself. *)
Theorem Normalise_keeps_sign_consistent (t : UniversalTime) :
  sign_consistent t -> eqb (Normalise t) t = true.
Proof. apply Normalise_sign_consistent_id. Qed.

(** X5: on sign-consistent timestamps [operator==] holds exactly when the
    two denote the same instant. *)
Theorem eqb_sign_consistent_iff_instant (a b : UniversalTime) :
  sign_consistent a -> sign_consistent b ->
  (eqb a b = true <-> (instant a == instant b)%Q).
Proof. apply eqb_instant_sign_consistent. Qed.

(** X6: on sign-consistent timestamps [operator<], [operator<=],
    [operator>] and [operator>=] compare the denoted instants. *)
Theorem comparisons_sign_consistent_instant (a b : UniversalTime) :
  sign_consistent a -> sign_consistent b ->
  (ltb a b = true <-> (instant a < instant b)%Q)
  /\ (leb a b = true <-> (instant a <= instant b)%Q)
  /\ (gtb a b = true <-> (instant b < instant a)%Q)
  /\ (geb a b = true <-> (instant b <= instant a)%Q).
Proof.
  intros Ha Hb.
  pose proof (ltb_instant_sign_consistent a b Ha Hb) as Lt.
  pose proof (leb_instant_sign_consistent a b Ha Hb) as Le.
  pose proof (eqb_instant_sign_consistent a b Ha Hb) as Eq.
  assert (Gt : gtb a b = true <-> (instant b < instant a)%Q).
  { unfold gtb. rewrite negb_true_iff. split.
    - intros H. apply Qnot_le_lt. intros H'. apply Le in H'. congruence.
    - intros H. case_eq (leb a b); intros E; [|reflexivity].
      apply Le in E. exfalso. lra. }
  split; [exact Lt|]. split; [exact Le|]. split; [exact Gt|].
  unfold geb. rewrite orb_true_iff, Gt, Eq. split.
  - intros [H | H]; [apply Qlt_le_weak, H | rewrite H; apply Qle_refl].
  - intros H. destruct (Qle_lt_or_eq _ _ H) as [H' | H'];
      [left; exact H' | right; symmetry; exact H'].
Qed.


(** X9: on sign-consistent operands with whole nanoseconds (so that the
    [Double_t] sums are exact) and small days (so that [Int_t] does not
    overflow), [(a + b) - b] and [(a - b) + b] are [operator==] to [a]. *)
Theorem minus_plus_cancel_sign_consistent (a b : UniversalTime) :
  sign_consistent a -> sign_consistent b ->
  whole_ns a = true -> whole_ns b = true ->
  small_days a -> small_days b ->
  eqb (minus (plus a b) b) a = true /\ eqb (plus (minus a b) b) a = true.
Proof.
  intros Ha Hb _ _ _ _.
  destruct (plus_minus_sign_consistent a b Ha Hb) as [Hp Hm].
  split; apply sign_consistent_eqb_of_instant; auto.
  - apply (plus_minus_sign_consistent _ _ Hp Hb).
  - rewrite instant_minus, instant_plus. ring.
  - apply (plus_minus_sign_consistent _ _ Hm Hb).
  - rewrite instant_plus, instant_minus. ring.
Qed.

(** X10: the default-constructed timestamp is a two-sided identity of
    [operator+] on sign-consistent timestamps. *)
Theorem UT0_plus_identity_sign_consistent (x : UniversalTime) :
  sign_consistent x ->
  eqb (plus UT0 x) x = true /\ eqb (plus x UT0) x = true.
Proof.
  intros Hx.
  destruct (plus_minus_sign_consistent UT0 x UT0_sign_consistent Hx)
    as [H1 _].
  destruct (plus_minus_sign_consistent x UT0 Hx UT0_sign_consistent)
    as [H2 _].
  split; apply sign_consistent_eqb_of_instant; auto;
    rewrite instant_plus, instant_UT0; ring.
Qed.

(** X11: [operator+] is commutative up to [operator==], for all operands. *)
Theorem plus_comm_eqb (a b : UniversalTime) :
  eqb (plus a b) (plus b a) = true.
Proof.
  unfold plus, add_assign. apply Normalise_eqb.
  apply eqb_iff; simpl. split; [lia | split; [lia | apply Qplus_comm]].
Qed.

(** X12: [operator+] is associative up to [operator==] on sign-consistent
    operands with whole nanoseconds and small days (exact [Double_t] sums,
    no [Int_t] overflow). *)
Theorem plus_assoc_sign_consistent (a b c : UniversalTime) :
  sign_consistent a -> sign_consistent b -> sign_consistent c ->
  whole_ns a = true -> whole_ns b = true -> whole_ns c = true ->
  small_days a -> small_days b -> small_days c ->
  eqb (plus (plus a b) c) (plus a (plus b c)) = true.
Proof.
  intros Ha Hb Hc _ _ _ _ _ _.
  destruct (plus_minus_sign_consistent a b Ha Hb) as [Hab _].
  destruct (plus_minus_sign_consistent b c Hb Hc) as [Hbc _].
  apply sign_consistent_eqb_of_instant.
  - apply (plus_minus_sign_consistent _ _ Hab Hc).
  - apply (plus_minus_sign_consistent _ _ Ha Hbc).
  - rewrite !instant_plus. ring.
Qed.

(** X13: [a - a] is [operator==] to the default-constructed timestamp, for
    every [a]. *)
Theorem minus_self_zero (a : UniversalTime) : eqb (minus a a) UT0 = true.
Proof. apply sub_assign_self_UT0. Qed.

(** X14: [operator<] is transitive. *)
Theorem ltb_trans (a b c : UniversalTime) :
  ltb a b = true -> ltb b c = true -> ltb a c = true.
Proof.
  rewrite !ltb_lex. apply lex_lt_trans.
Qed.

(** X15: [operator<] is irreflexive; [operator>] and [operator>=] are
    [operator<] and [operator<=] with the operands swapped; and exactly one
    of [a < b], [a == b], [a > b] holds. *)
Theorem comparison_trichotomy (a b : UniversalTime) :
  ltb a a = false
  /\ gtb a b = ltb b a
  /\ geb a b = leb b a
  /\ (Nat.b2n (ltb a b) + Nat.b2n (eqb a b) + Nat.b2n (gtb a b) = 1)%nat.
Proof.
  assert (Irr : ltb a a = false).
  { destruct (ltb a a) eqn:E; [|reflexivity].
    apply ltb_lex in E. exfalso. exact (lex_lt_asym a a E E). }
  assert (Gt : gtb a b = ltb b a).
  { unfold gtb, leb.
    destruct (lex_trichotomy a b) as [H | [H | H]].
    - pose proof (lex_lt_not_eqb _ _ H) as E.
      apply ltb_lex in H as H'. rewrite H'. simpl.
      destruct (ltb b a) eqn:F; [|reflexivity].
      apply ltb_lex in F. exfalso. exact (lex_lt_asym _ _ F (proj1 (ltb_lex a b) H')).
    - rewrite H, orb_true_r. simpl.
      destruct (ltb b a) eqn:F; [|reflexivity].
      apply ltb_lex in F. rewrite eqb_sym, (lex_lt_not_eqb _ _ F) in H.
      discriminate.
    - pose proof (lex_lt_not_eqb _ _ H) as E. rewrite eqb_sym in E.
      apply ltb_lex in H as H'. rewrite H', E.
      destruct (ltb a b) eqn:F; [|reflexivity].
      apply ltb_lex in F. exfalso. exact (lex_lt_asym _ _ F (proj1 (ltb_lex b a) H')). }
  split; [exact Irr|]. split; [exact Gt|]. split.
  - unfold geb, leb. rewrite Gt, eqb_sym. reflexivity.
  - rewrite Gt. destruct (lex_trichotomy a b) as [H | [H | H]].
    + rewrite (lex_lt_not_eqb _ _ H), (proj2 (ltb_lex a b) H).
      destruct (ltb b a) eqn:F; [|reflexivity].
      apply ltb_lex in F. exfalso. exact (lex_lt_asym _ _ H F).
    + rewrite H.
      destruct (ltb a b) eqn:F1.
      { apply ltb_lex in F1. rewrite (lex_lt_not_eqb _ _ F1) in H. discriminate. }
      destruct (ltb b a) eqn:F2; [|reflexivity].
      apply ltb_lex in F2. rewrite eqb_sym, (lex_lt_not_eqb _ _ F2) in H.
      discriminate.
    + pose proof (lex_lt_not_eqb _ _ H) as E. rewrite eqb_sym in E.
      rewrite E, (proj2 (ltb_lex b a) H).
      destruct (ltb a b) eqn:F; [|reflexivity].
      apply ltb_lex in F. exfalso. exact (lex_lt_asym _ _ H F).
Qed.

(** X16: on a sign-consistent timestamp [IsNegative] is the negation of
    [TimeOrder], and [TimeOrder] holds exactly when the denoted instant is
    not negative. *)
Theorem IsNegative_TimeOrder_sign_consistent (t : UniversalTime) :
  sign_consistent t ->
  IsNegative t = negb (TimeOrder t)
  /\ (TimeOrder t = true <-> (0 <= instant t)%Q).
Proof.
  destruct t as [d s n]; unfold sign_consistent, IsNegative, TimeOrder;
    simpl; rewrite instant_mkRaw.
  intros Hc.
  destruct (Z.ltb_spec d 0) as [D1|D1], (Z.eqb_spec d 0) as [D2|D2],
    (Z.ltb_spec s 0) as [S1|S1], (Z.eqb_spec s 0) as [S2|S2],
    (Qltb_spec n 0) as [N1|N1]; simpl;
    destruct Hc as [[C1 [[C2 C3] [C4 C5]]] | [C1 [[C2 C3] [C4 C5]]]];
    try subst d; try subst s;
    (split; [first [reflexivity | exfalso; lia | exfalso; lra] |]);
    split; intros Hx; try reflexivity; try discriminate;
    try (exfalso; lia); z_to_q; first [lra | exfalso; lra].
Qed.

(** X17: [a -= a] on one object (the operand aliases [*this]) sets it to a
    value [operator==] to zero and leaves every other object alone. *)
Theorem sub_assign_self_alias (h : store) (l : loc) (a : UniversalTime)
  (Ha : h !! l = Some a) :
  exists h' z, sub_assign_at h l l = Some h'
    /\ h' !! l = Some z /\ eqb z UT0 = true
    /\ (forall l', l' <> l -> h' !! l' = h !! l').
Proof.
  unfold sub_assign_at. rewrite Ha; simpl.
  eexists _, _. split; [reflexivity|].
  rewrite lookup_insert_eq. split; [reflexivity|].
  split; [apply sub_assign_self_UT0|].
  intros l' Hl. rewrite lookup_insert_ne by congruence. reflexivity.
Qed.

(** * Witnesses of the further properties *)

Lemma Normalise_bounded_gives_sign_consistent_witness :
  bounded (mkRaw 1 (-5) 3) /\ sign_consistent (Normalise (mkRaw 1 (-5) 3)).
Proof.
  assert (H : bounded (mkRaw 1 (-5) 3))
    by (unfold bounded; simpl; split; [lia | split; q_concrete]).
  split; [exact H | exact (Normalise_bounded_gives_sign_consistent _ H)].
Defined.

Lemma Normalise_same_sign_gives_sign_consistent_witness :
  same_sign (mkRaw 0 20000000 1000000000)
  /\ int_domain (mkRaw 0 20000000 1000000000)
  /\ (-1000000000 <= 1000000000 <= 1000000000)%Q
  /\ sign_consistent (Normalise (mkRaw 0 20000000 1000000000)).
Proof.
  assert (H1 : same_sign (mkRaw 0 20000000 1000000000))
    by (unfold same_sign; simpl; left; split; [lia | split; [lia | q_concrete]]).
  assert (H2 : int_domain (mkRaw 0 20000000 1000000000))
    by (unfold int_domain; simpl; split; [lia | q_concrete]).
  assert (H3 : (-1000000000 <= 1000000000 <= 1000000000)%Q)
    by (split; q_concrete).
  split; [exact H1|]. split; [exact H2|]. split; [exact H3|].
  exact (Normalise_same_sign_gives_sign_consistent _ H1 H2 H3).
Defined.

Lemma Normalise_twice_sign_consistent_witness :
  int_domain (mkRaw 2 (-100000) 100000000000000000)
  /\ sign_consistent (Normalise (Normalise (mkRaw 2 (-100000) 100000000000000000))).
Proof.
  assert (H : int_domain (mkRaw 2 (-100000) 100000000000000000))
    by (unfold int_domain; simpl; split; [lia | q_concrete]).
  split; [exact H | exact (Normalise_twice_sign_consistent _ H)].
Defined.

Lemma Normalise_keeps_sign_consistent_witness :
  sign_consistent (mkRaw (-3) (-7) (-11))
  /\ eqb (Normalise (mkRaw (-3) (-7) (-11))) (mkRaw (-3) (-7) (-11)) = true.
Proof.
  assert (H : sign_consistent (mkRaw (-3) (-7) (-11))) by sc_concrete.
  split; [exact H | exact (Normalise_keeps_sign_consistent _ H)].
Defined.

Lemma eqb_sign_consistent_iff_instant_witness :
  sign_consistent (mkRaw 1 2 3) /\ sign_consistent (mkRaw 0 5 7)
  /\ (eqb (mkRaw 1 2 3) (mkRaw 0 5 7) = true
      <-> (instant (mkRaw 1 2 3) == instant (mkRaw 0 5 7))%Q).
Proof.
  assert (H1 : sign_consistent (mkRaw 1 2 3)) by sc_concrete.
  assert (H2 : sign_consistent (mkRaw 0 5 7)) by sc_concrete.
  split; [exact H1|]. split; [exact H2|].
  exact (eqb_sign_consistent_iff_instant _ _ H1 H2).
Defined.

Lemma comparisons_sign_consistent_instant_witness :
  sign_consistent (mkRaw 1 2 3) /\ sign_consistent (mkRaw (-1) (-5) 0)
  /\ (ltb (mkRaw 1 2 3) (mkRaw (-1) (-5) 0) = true
      <-> (instant (mkRaw 1 2 3) < instant (mkRaw (-1) (-5) 0))%Q)
  /\ (leb (mkRaw 1 2 3) (mkRaw (-1) (-5) 0) = true
      <-> (instant (mkRaw 1 2 3) <= instant (mkRaw (-1) (-5) 0))%Q)
  /\ (gtb (mkRaw 1 2 3) (mkRaw (-1) (-5) 0) = true
      <-> (instant (mkRaw (-1) (-5) 0) < instant (mkRaw 1 2 3))%Q)
  /\ (geb (mkRaw 1 2 3) (mkRaw (-1) (-5) 0) = true
      <-> (instant (mkRaw (-1) (-5) 0) <= instant (mkRaw 1 2 3))%Q).
Proof.
  assert (H1 : sign_consistent (mkRaw 1 2 3)) by sc_concrete.
  assert (H2 : sign_consistent (mkRaw (-1) (-5) 0)) by sc_concrete.
  split; [exact H1|]. split; [exact H2|].
  exact (comparisons_sign_consistent_instant _ _ H1 H2).
Defined.


Lemma minus_plus_cancel_sign_consistent_witness :
  sign_consistent (mkRaw 0 0 0) /\ sign_consistent (mkRaw 0 0 1)
  /\ whole_ns (mkRaw 0 0 0) = true /\ whole_ns (mkRaw 0 0 1) = true
  /\ small_days (mkRaw 0 0 0) /\ small_days (mkRaw 0 0 1)
  /\ eqb (minus (plus (mkRaw 0 0 0) (mkRaw 0 0 1)) (mkRaw 0 0 1))
         (mkRaw 0 0 0) = true
  /\ eqb (plus (minus (mkRaw 0 0 0) (mkRaw 0 0 1)) (mkRaw 0 0 1))
         (mkRaw 0 0 0) = true.
Proof.
  assert (H1 : sign_consistent (mkRaw 0 0 0)) by sc_concrete.
  assert (H2 : sign_consistent (mkRaw 0 0 1)) by sc_concrete.
  assert (W1 : whole_ns (mkRaw 0 0 0) = true) by reflexivity.
  assert (W2 : whole_ns (mkRaw 0 0 1) = true) by reflexivity.
  assert (D1 : small_days (mkRaw 0 0 0)) by (unfold small_days; simpl; lia).
  assert (D2 : small_days (mkRaw 0 0 1)) by (unfold small_days; simpl; lia).
  split; [exact H1|]. split; [exact H2|]. split; [exact W1|].
  split; [exact W2|]. split; [exact D1|]. split; [exact D2|].
  exact (minus_plus_cancel_sign_consistent _ _ H1 H2 W1 W2 D1 D2).
Defined.

Lemma UT0_plus_identity_sign_consistent_witness :
  sign_consistent (mkRaw (-4) (-3) (-2))
  /\ eqb (plus UT0 (mkRaw (-4) (-3) (-2))) (mkRaw (-4) (-3) (-2)) = true
  /\ eqb (plus (mkRaw (-4) (-3) (-2)) UT0) (mkRaw (-4) (-3) (-2)) = true.
Proof.
  assert (H : sign_consistent (mkRaw (-4) (-3) (-2))) by sc_concrete.
  split; [exact H|].
  exact (UT0_plus_identity_sign_consistent _ H).
Defined.

Lemma plus_assoc_sign_consistent_witness :
  sign_consistent (mkRaw 1 2 3) /\ sign_consistent (mkRaw (-1) (-5) 0)
  /\ sign_consistent (mkRaw 0 86399 999999999)
  /\ whole_ns (mkRaw 1 2 3) = true /\ whole_ns (mkRaw (-1) (-5) 0) = true
  /\ whole_ns (mkRaw 0 86399 999999999) = true
  /\ small_days (mkRaw 1 2 3) /\ small_days (mkRaw (-1) (-5) 0)
  /\ small_days (mkRaw 0 86399 999999999)
  /\ eqb (plus (plus (mkRaw 1 2 3) (mkRaw (-1) (-5) 0))
               (mkRaw 0 86399 999999999))
         (plus (mkRaw 1 2 3)
               (plus (mkRaw (-1) (-5) 0) (mkRaw 0 86399 999999999))) = true.
Proof.
  assert (H1 : sign_consistent (mkRaw 1 2 3)) by sc_concrete.
  assert (H2 : sign_consistent (mkRaw (-1) (-5) 0)) by sc_concrete.
  assert (H3 : sign_consistent (mkRaw 0 86399 999999999)) by sc_concrete.
  assert (W1 : whole_ns (mkRaw 1 2 3) = true) by reflexivity.
  assert (W2 : whole_ns (mkRaw (-1) (-5) 0) = true) by reflexivity.
  assert (W3 : whole_ns (mkRaw 0 86399 999999999) = true) by reflexivity.
  assert (D1 : small_days (mkRaw 1 2 3)) by (unfold small_days; simpl; lia).
  assert (D2 : small_days (mkRaw (-1) (-5) 0))
    by (unfold small_days; simpl; lia).
  assert (D3 : small_days (mkRaw 0 86399 999999999))
    by (unfold small_days; simpl; lia).
  split; [exact H1|]. split; [exact H2|]. split; [exact H3|].
  split; [exact W1|]. split; [exact W2|]. split; [exact W3|].
  split; [exact D1|]. split; [exact D2|]. split; [exact D3|].
  exact (plus_assoc_sign_consistent _ _ _ H1 H2 H3 W1 W2 W3 D1 D2 D3).
Defined.

Lemma ltb_trans_witness :
  ltb (mkRaw 0 5 0) (mkRaw 0 5 1) = true
  /\ ltb (mkRaw 0 5 1) (mkRaw 1 (-3) 0) = true
  /\ ltb (mkRaw 0 5 0) (mkRaw 1 (-3) 0) = true.
Proof.
  assert (H1 : ltb (mkRaw 0 5 0) (mkRaw 0 5 1) = true)
    by (vm_compute; reflexivity).
  assert (H2 : ltb (mkRaw 0 5 1) (mkRaw 1 (-3) 0) = true)
    by (vm_compute; reflexivity).
  split; [exact H1|]. split; [exact H2|].
  exact (ltb_trans _ _ _ H1 H2).
Defined.

Lemma IsNegative_TimeOrder_sign_consistent_witness :
  sign_consistent (mkRaw 0 0 (-1))
  /\ IsNegative (mkRaw 0 0 (-1)) = negb (TimeOrder (mkRaw 0 0 (-1)))
  /\ (TimeOrder (mkRaw 0 0 (-1)) = true
      <-> (0 <= instant (mkRaw 0 0 (-1)))%Q).
Proof.
  assert (H : sign_consistent (mkRaw 0 0 (-1))) by sc_concrete.
  split; [exact H|].
  exact (IsNegative_TimeOrder_sign_consistent _ H).
Defined.

Lemma sub_assign_self_alias_witness :
  (<[1%positive := UT 3 4 5]> ∅ : store) !! 1%positive = Some (UT 3 4 5)
  /\ exists h' z, sub_assign_at (<[1%positive := UT 3 4 5]> ∅) 1%positive
                    1%positive = Some h'
    /\ h' !! 1%positive = Some z /\ eqb z UT0 = true
    /\ (forall l', l' <> 1%positive ->
          h' !! l' = (<[1%positive := UT 3 4 5]> ∅ : store) !! l').
Proof.
  assert (H : (<[1%positive := UT 3 4 5]> ∅ : store) !! 1%positive
              = Some (UT 3 4 5))
    by (rewrite lookup_insert_eq; reflexivity).
  split; [exact H|].
  exact (sub_assign_self_alias _ _ _ H).
Defined.

